(** * offsetlogger: robust aggregation of NTP offset samples

    A shallow embedding of [python/offsetlogger.py].

    Numbers.  Python floats are modelled by the rationals they denote
    ([Q]); arithmetic is exact, so rounding, infinities and signed zeros
    are outside the model.  The one place where the program itself
    manufactures a NaN (the minimum of an empty pandas selection) is
    modelled explicitly with [option Q].

    Libraries.  The NumPy routines whose results depend on LAPACK or on
    the floating-point format ([np.polyfit]'s solver, [np.nanquantile],
    [np.sqrt]) are the fields of the class [Numerics]; every definition
    and theorem of the pipeline is stated for an arbitrary instance.
    [Exact] is the instance that computes them in exact arithmetic; it is
    used to run the pipeline on concrete batches. *)

From Stdlib Require Import QArith Qpower Qround Qabs ZArith Lia List String Ascii Bool.
From Stdlib Require Import DecimalString.
From Equations Require Import Equations.
From stdpp Require Import base option list gmap.
Import ListNotations.

Local Open Scope Q_scope.

(** ** Exceptions *)

Inductive exn : Type :=
| ValueError   (* e.g. minimum of a zero-size ndarray *)
| TypeError    (* e.g. np.polyfit on an empty vector *)
| LinAlgError. (* LAPACK failure inside np.polyfit *)

Inductive result (A : Type) : Type :=
| Ok (a : A)
| Raise (e : exn).
Arguments Ok {A} a.
Arguments Raise {A} e.

#[global] Instance result_ret : MRet result := fun _ a => Ok a.
#[global] Instance result_bind : MBind result := fun _ _ k m =>
  match m with
  | Ok a => k a
  | Raise e => Raise e
  end.

(** A list comprehension whose body may raise. *)
Fixpoint rmap {A B} (f : A -> result B) (l : list A) : result (list B) :=
  match l with
  | [] => Ok []
  | a :: l' => b ← f a; bs ← rmap f l'; Ok (b :: bs)
  end.

(** ** Comparisons and reductions on numbers *)

Definition Qleb (a b : Q) : bool := Qle_bool a b.
Definition Qltb (a b : Q) : bool := negb (Qle_bool b a).

Definition Qminb (a b : Q) : Q := if Qleb a b then a else b.

Definition np_sum (l : list Q) : Q := fold_left Qplus l 0.

(** [np.mean] / [Series.mean] of a non-empty vector. *)
Definition np_mean (l : list Q) : Q := np_sum l / inject_Z (Z.of_nat (length l)).

(** [np.average(data, weights=w)]. *)
Definition np_average (data w : list Q) : Q :=
  np_sum (map (fun p => fst p * snd p) (combine data w)) / np_sum w.

(** [a.min()] on an ndarray: a zero-size array has no minimum. *)
Definition ndarray_min (l : list Q) : result Q :=
  match l with
  | [] => Raise ValueError
  | x :: l' => Ok (fold_left Qminb l' x)
  end.

(** [s.min()] on a pandas Series: the minimum of nothing is NaN ([None]). *)
Definition series_min (l : list Q) : option Q :=
  match l with
  | [] => None
  | x :: l' => Some (fold_left Qminb l' x)
  end.

(** ** weights_from_uncertainty

<<
def weights_from_uncertainty(sig_data):
    sigs = sig_data.copy()
    sigs[sigs<=0] = sigs[sigs > 0].min() / 2
    return 1 / np.pow(sigs, 2)
>>
*)

(** [sigs[sigs<=0] = v] *)
Definition assign_nonpositive (v : Q) (sigs : list Q) : list Q :=
  map (fun s => if Qleb s 0 then v else s) sigs.

(** [1 / np.pow(sigs, 2)] *)
Definition inverse_square (sigs : list Q) : list Q :=
  map (fun s => 1 / (s ^ 2)) sigs.

(** On an ndarray (the call from [weighted_mean]). *)
Definition weights_from_uncertainty (sig_data : list Q) : result (list Q) :=
  let sigs := sig_data in
  m ← ndarray_min (List.filter (fun s => Qltb 0 s) sigs);
  let sigs := assign_nonpositive (m / 2) sigs in
  Ok (inverse_square sigs).

(** On a pandas Series (the call from [polyfit_with_uncertainty]): when no
    entry is positive the fill value is NaN, and so is every weight
    computed from a filled entry. *)
Definition weights_from_uncertainty_series (sig_data : list Q) : list (option Q) :=
  let sigs := sig_data in
  match series_min (List.filter (fun s => Qltb 0 s) sigs) with
  | Some m => map Some (inverse_square (assign_nonpositive (m / 2) sigs))
  | None => map (fun s => if Qleb s 0 then None else Some (1 / (s ^ 2))) sigs
  end.

(** ** Arrays as objects

    [weights_from_uncertainty] once more, now on array objects in a store,
    to tell the arrays it creates from the one it was handed: [copy],
    boolean indexing and arithmetic allocate, the masked assignment
    writes in place. *)

Module Heap.

Definition M (A : Type) : Type :=
  gmap nat (list Q) -> result A * gmap nat (list Q).

#[export] Instance M_ret : MRet M := fun _ a h => (Ok a, h).
#[export] Instance M_bind : MBind M := fun _ _ k m h =>
  match m h with
  | (Ok a, h') => k a h'
  | (Raise e, h') => (Raise e, h')
  end.

Definition lift {A} (r : result A) : M A := fun h => (r, h).

Definition alloc (a : list Q) : M nat :=
  fun h => let l := fresh (dom h) in (Ok l, <[l := a]> h).

(** Reading through a reference that names no array does not happen in
    a run that starts from a live reference. *)
Definition load (l : nat) : M (list Q) :=
  fun h => match h !! l with
           | Some a => (Ok a, h)
           | None => (Raise TypeError, h)
           end.

Definition store (l : nat) (a : list Q) : M unit :=
  fun h => (Ok tt, <[l := a]> h).

(** [a.copy()] *)
Definition copy (l : nat) : M nat := a ← load l; alloc a.

(** [a[a > 0]] *)
Definition getitem_positive (l : nat) : M nat :=
  a ← load l; alloc (List.filter (fun s => Qltb 0 s) a).

(** [a.min()] *)
Definition min (l : nat) : M Q := a ← load l; lift (ndarray_min a).

(** [a[a <= 0] = v] *)
Definition setitem_nonpositive (l : nat) (v : Q) : M unit :=
  a ← load l; store l (assign_nonpositive v a).

(** [1 / np.pow(a, 2)] *)
Definition reciprocal_square (l : nat) : M nat :=
  a ← load l; alloc (inverse_square a).

Definition weights_from_uncertainty (sig_data : nat) : M nat :=
  sigs ← copy sig_data;
  positive ← getitem_positive sigs;
  m ← min positive;
  _ ← setitem_nonpositive sigs (m / 2);
  reciprocal_square sigs.

End Heap.

(** ** The NTP client

    [ntplib.NTPStats]: the fields of a reply that the logger reads.
    A request that raises yields no reply ([None] below). *)

Module ntplib.
Record NTPStats : Type := {
  orig_time : Q;
  dest_time : Q;
  tx_time : Q;
  recv_time : Q;
  offset : Q;
  root_dispersion : Q
}.
End ntplib.

(** ** NumPy

    The routines the program treats as black boxes. *)

Class Numerics : Type := {
  (** the least-squares solve of [np.polyfit(x, y, deg, w=w)] on arguments
      that passed its shape checks; coefficients, highest power first; a
      NaN weight is [None] *)
  polyfit_solve : list Q -> list Q -> nat -> option (list (option Q)) -> result (list Q);
  (** [np.nanquantile(a, q)] *)
  np_nanquantile : list Q -> Q -> Q;
  (** [np.sqrt] *)
  np_sqrt : Q -> Q
}.

Section Pipeline.

Context {NP : Numerics}.

(** ** weighted_mean *)

Definition weighted_mean (data sig_data : list Q) : result (Q * Q) :=
  weights ← weights_from_uncertainty sig_data;
  let average := np_average data weights in
  let sigma := np_sqrt (1 / np_sum weights) in
  Ok (average, sigma).

(** ** The data frame *)

Record row : Type := {
  local_time : Q;
  pred_time : Q;
  serv_time : Q;
  offset : Q;
  sig_offset : Q;
  pred_offset : Q;
  sig_pred_offset : Q
}.

Inductive column : Type :=
| LocalTime | PredTime | ServTime | Offset | SigOffset | PredOffset | SigPredOffset.

(** [data[c]] on one row. *)
Definition cell (c : column) (r : row) : Q :=
  match c with
  | LocalTime => local_time r
  | PredTime => pred_time r
  | ServTime => serv_time r
  | Offset => offset r
  | SigOffset => sig_offset r
  | PredOffset => pred_offset r
  | SigPredOffset => sig_pred_offset r
  end.

Definition frame : Type := list row.

(** [data[c]] *)
Definition col (data : frame) (c : column) : list Q := map (cell c) data.

(** [data[mask]]: the rows whose mask entry is [True]. *)
Definition boolean_index {A} (data : list A) (mask : list bool) : list A :=
  map fst (List.filter snd (combine data mask)).

(** ** polyfit_with_uncertainty *)

(** [np.polyfit(x, y, deg, full=True, w=w)]: NumPy refuses an empty [x]
    and vectors of different lengths with a [TypeError] before it solves. *)
Definition np_polyfit (x y : list Q) (deg : nat) (w : option (list (option Q)))
  : result (list Q) :=
  if (length x =? 0)%nat then Raise TypeError
  else if negb (length x =? length y)%nat then Raise TypeError
  else match w with
       | Some ws =>
           if negb (length ws =? length y)%nat then Raise TypeError
           else polyfit_solve x y deg w
       | None => polyfit_solve x y deg w
       end.

(** [np.polyval(p, x)]: Horner's rule, highest power first. *)
Definition np_polyval (p : list Q) (x : Q) : Q :=
  fold_left (fun y pv => y * x + pv) p 0.

Definition polyfit_with_uncertainty (data : frame) (x_column y_column : column)
    (sig_column : option column) (degree : nat) : result (list Q) :=
  let x_data := col data x_column in
  let y_data := col data y_column in
  match sig_column with
  | Some sc =>
      let sig_data := col data sc in
      let weights := weights_from_uncertainty_series sig_data in
      np_polyfit x_data y_data degree (Some weights)
  | None => np_polyfit x_data y_data degree None
  end.

(** ** outlier_filter, count_outliers, remove_outliers *)

Definition outlier_filter (data : frame) (filter_column : column)
    (fit_column sig_column : option column) (level : Q) (degree : nat)
  : result (list bool) :=
  let filter_data := col data filter_column in
  filter_data ←
    match fit_column with
    | Some fc =>
        let fit_data := col data fc in
        if negb (length filter_data =? length fit_data)%nat then Raise ValueError
        else
          trend ← polyfit_with_uncertainty data fc filter_column sig_column degree;
          Ok (map (fun p => fst p - np_polyval trend (snd p))
                  (combine filter_data fit_data))
    | None => Ok filter_data
    end;
  let q1 := np_nanquantile filter_data (1 # 4) in
  let q3 := np_nanquantile filter_data (3 # 4) in
  let iqr := q3 - q1 in
  let min_val := q1 - level * iqr in
  let max_val := q3 + level * iqr in
  Ok (map (fun v => Qleb min_val v && Qleb v max_val) filter_data).

(** [np.sum(~filter)] *)
Definition count_false (mask : list bool) : nat :=
  length (List.filter negb mask).

Definition count_outliers (data : frame) (filter_column : column)
    (fit_column sig_column : option column) (level : Q) (degree : nat)
  : result nat :=
  filter ← outlier_filter data filter_column fit_column sig_column level degree;
  Ok (count_false filter).

Definition remove_outliers (data : frame) (filter_column : column)
    (fit_column sig_column : option column) (level : Q) (degree : nat)
  : result frame :=
  filter ← outlier_filter data filter_column fit_column sig_column level degree;
  Ok (boolean_index data filter).

(** ** predict_time *)

(** [history[(history['local_time'] < local_time)
            & (history['local_time'] >= local_time - window)]] *)
Definition in_window (t window : Q) (r : row) : bool :=
  Qltb (local_time r) t && Qleb (t - window) (local_time r).

Definition predict_time (t : Q) (history : frame) (window level : Q) (degree : nat)
  : result Q :=
  let past_data := List.filter (in_window t window) history in
  if (length past_data <? 5)%nat then
    if (length past_data =? 0)%nat then Ok t
    else Ok (t + np_mean (col past_data Offset))
  else
    filtered_data ←
      remove_outliers past_data Offset (Some LocalTime) (Some SigOffset) level degree;
    if (length filtered_data <? 5)%nat then
      if (length filtered_data =? 0)%nat then Ok t
      else Ok (t + np_mean (col past_data Offset))
    else
      trend ←
        polyfit_with_uncertainty filtered_data LocalTime Offset (Some SigOffset) degree;
      Ok (t + np_polyval trend t).

(** ** The acquisition loop

<<
    while (count_outliers(sample_data, 'offset', 'local_time', 'sig_offset',
                          level=0.5, degree=3) > len(offsets) / 20):
        if len(sample_data) < 5:
            break
        sample_data = remove_outliers(sample_data, 'offset', 'local_time',
                                      'sig_offset', level=0.5, degree=3)
>>

    [n] is [len(offsets)], the size of the batch before any trimming.  The
    result is the value of [sample_data] when the loop is left (or the
    exception that left it), together with the trace of the frames from
    which outliers were removed, oldest first. *)

Definition inspect {A} (a : A) : {b | a = b} := exist _ a eq_refl.

(** [count > n / 20] *)
Definition over_threshold (count n : nat) : bool :=
  Qltb (inject_Z (Z.of_nat n) / 20) (inject_Z (Z.of_nat count)).

Equations? trim_loop (n : nat) (sample_data : frame) : list frame * result frame
  by wf (length sample_data) lt :=
  trim_loop n sample_data
    with inspect (count_outliers sample_data Offset (Some LocalTime) (Some SigOffset)
                                 (1 # 2) 3) := {
    | exist _ (Raise e) _ => ([], Raise e)
    | exist _ (Ok count) Hcount with inspect (over_threshold count n) := {
      | exist _ false _ => ([], Ok sample_data)
      | exist _ true Hover with inspect (length sample_data <? 5)%nat := {
        | exist _ true _ => ([], Ok sample_data)
        | exist _ false _
            with inspect (remove_outliers sample_data Offset (Some LocalTime)
                                          (Some SigOffset) (1 # 2) 3) := {
          | exist _ (Raise e) _ => ([], Raise e)
          | exist _ (Ok trimmed) Hremove =>
              let '(trace, final) := trim_loop n trimmed in
              (sample_data :: trace, final) } } } }.
Proof.
  unfold count_outliers, remove_outliers in *.
  destruct (outlier_filter sample_data Offset (Some LocalTime) (Some SigOffset)
              (1 # 2) 3) as [mask|] eqn:Hmask; [|discriminate].
  cbn in Hcount, Hremove. simplify_eq.
  assert (Hlen : length mask = length sample_data).
  { unfold outlier_filter in Hmask. cbn in Hmask.
    destruct (negb _); [discriminate|].
    destruct (np_polyfit _ _ _ _) as [trend|]; [|discriminate].
    cbn in Hmask. simplify_eq.
    rewrite !length_map, length_combine. unfold col. rewrite !length_map. lia. }
  assert (Hpos : (0 < count_false mask)%nat).
  { destruct (count_false mask); [|lia].
    unfold over_threshold, Qltb in Hover.
    apply negb_true_iff, not_true_iff_false in Hover.
    exfalso. apply Hover, Qle_bool_iff.
    unfold Qle. cbn. lia. }
  clear - Hpos Hlen. unfold boolean_index, count_false in *.
  rewrite length_map.
  revert mask Hpos Hlen.
  induction sample_data as [|r d IH]; intros [|b mask] Hpos Hlen;
    cbn in *; try lia.
  destruct b; cbn in *.
  - specialize (IH mask Hpos). lia.
  - pose proof (filter_length_le snd (combine d mask)) as Hle.
    rewrite length_combine in Hle. lia.
Qed.

(** Element-wise arithmetic on arrays of equal length. *)
Definition midpoints (a b : list Q) : list Q := zip_with (fun x y => (x + y) / 2) a b.

(** [pd.DataFrame({...})] from seven columns; in a cycle they all have
    the length of [responses]. *)
Fixpoint DataFrame (lt pt st o so po spo : list Q) : frame :=
  match lt, pt, st, o, so, po, spo with
  | a :: lt, b :: pt, c :: st, d :: o, e :: so, f :: po, g :: spo =>
      {| local_time := a; pred_time := b; serv_time := c; offset := d;
         sig_offset := e; pred_offset := f; sig_pred_offset := g |}
      :: DataFrame lt pt st o so po spo
  | _, _, _, _, _, _, _ => []
  end.

(** The replies that arrived: a request that raised appends nothing. *)
Definition collect (replies : list (option ntplib.NTPStats)) : list ntplib.NTPStats :=
  omap id replies.

(** The columns of one cycle, as computed before the trim loop. *)
Record batch : Type := {
  local_times : list Q;
  pred_times : list Q;
  serv_times : list Q;
  offsets : list Q;
  sig_offsets : list Q;
  pred_offsets : list Q;
  sig_pred_offsets : list Q
}.

Definition sample_batch (responses : list ntplib.NTPStats) (history : frame)
  : result batch :=
  let orig_times := map ntplib.orig_time responses in
  let dest_times := map ntplib.dest_time responses in
  let local_times := midpoints orig_times dest_times in
  pred_times ← rmap (fun localtime => predict_time localtime history 3000 (3 # 2) 3)
                    local_times;
  let tx_times := map ntplib.tx_time responses in
  let rx_times := map ntplib.recv_time responses in
  let serv_times := midpoints tx_times rx_times in
  let offsets := map ntplib.offset responses in
  let sig_offsets := map ntplib.root_dispersion responses in
  let pred_offsets := zip_with Qminus serv_times pred_times in
  let sig_pred_offsets := sig_offsets in
  Ok {| local_times := local_times; pred_times := pred_times;
        serv_times := serv_times; offsets := offsets; sig_offsets := sig_offsets;
        pred_offsets := pred_offsets; sig_pred_offsets := sig_pred_offsets |}.

Definition sample_frame (b : batch) : frame :=
  DataFrame (local_times b) (pred_times b) (serv_times b) (offsets b)
            (sig_offsets b) (pred_offsets b) (sig_pred_offsets b).

(** One pass of the body of [while True]: the record appended to the
    history and the history after the append. *)
Definition acquisition_cycle (replies : list (option ntplib.NTPStats)) (history : frame)
  : result (row * frame) :=
  let responses := collect replies in
  b ← sample_batch responses history;
  let sample_data := sample_frame b in
  sample_data ← snd (trim_loop (length (offsets b)) sample_data);
  let local_time := np_mean (local_times b) in
  let pred_time := np_mean (pred_times b) in
  let serv_time := np_mean (serv_times b) in
  '(offset, sig_offset) ← weighted_mean (offsets b) (sig_offsets b);
  '(pred_offset, sig_pred_offset) ← weighted_mean (pred_offsets b) (sig_pred_offsets b);
  let new_data :=
    {| local_time := local_time; pred_time := pred_time; serv_time := serv_time;
       offset := offset; sig_offset := sig_offset; pred_offset := pred_offset;
       sig_pred_offset := sig_pred_offset |} in
  Ok (new_data, history ++ [new_data]).

(** The value of [sample_data] when the trim loop of a cycle is left. *)
Definition surviving_samples (replies : list (option ntplib.NTPStats)) (history : frame)
  : result frame :=
  b ← sample_batch (collect replies) history;
  snd (trim_loop (length (offsets b)) (sample_frame b)).

End Pipeline.

(** ** The history line

<<
    new_line = f"{local_time}, {pred_time}, {serv_time}, {offset:.4e}, "
               f"{sig_offset:.4e}, {pred_offset:.4e}, {sig_pred_offset:.4e}\n"
>>

    [format_e p x] is Python's [format(x, '.pe')] on a finite float: the
    decimal scientific notation of the exact value of [x], correctly
    rounded (ties to even) to [p] digits after the decimal point, with an
    exponent of at least two digits. *)

Module Format.

Local Open Scope string_scope.
Local Open Scope Z_scope.

Definition digit_char (d : Z) : ascii := ascii_of_nat (48 + Z.to_nat d).

(** The [k] low decimal digits of [m], most significant first. *)
Fixpoint digits (k : nat) (m : Z) : string :=
  match k with
  | O => ""
  | S k' => digits k' (m / 10) ++ String (digit_char (m mod 10)) ""
  end.

(** While [n < d]: multiply [n] by ten and lower the exponent. *)
Fixpoint scale_up (fuel : nat) (n d e : Z) : Z * Z :=
  match fuel with
  | O => (n, e)
  | S fuel' => if n <? d then scale_up fuel' (10 * n) d (e - 1) else (n, e)
  end.

(** While [10 * d <= n]: multiply [d] by ten and raise the exponent. *)
Fixpoint scale_down (fuel : nat) (n d e : Z) : Z * Z :=
  match fuel with
  | O => (d, e)
  | S fuel' => if 10 * d <=? n then scale_down fuel' n (10 * d) (e + 1) else (d, e)
  end.

(** For [0 < n] and [0 < d]: [(n', d', e)] with [n / d = (n' / d') * 10^e]
    and [1 <= n' / d' < 10]. *)
Definition normalise (n d : Z) : Z * Z * Z :=
  let '(n', e) := scale_up (S (Z.to_nat (Z.log2 d))) n d 0 in
  let '(d', e) := scale_down (S (Z.to_nat (Z.log2 n'))) n' d e in
  (n', d', e).

(** [n / d] rounded to the nearest integer, ties to even. *)
Definition round_half_even (n d : Z) : Z :=
  let q := n / d in
  let r := n mod d in
  if 2 * r <? d then q
  else if d <? 2 * r then q + 1
  else if Z.even q then q else q + 1.

(** Mantissa (an integer of [p + 1] digits) and decimal exponent of a
    positive rational [n / d]. *)
Definition mantissa_exponent (p : nat) (n d : Z) : Z * Z :=
  let '(n', d', e) := normalise n d in
  let m := round_half_even (n' * 10 ^ Z.of_nat p) d' in
  if m =? 10 ^ Z.of_nat (S p) then (10 ^ Z.of_nat p, e + 1) else (m, e).

Definition decimal (z : Z) : string :=
  NilZero.string_of_uint (N.to_uint (Z.to_N z)).

Definition exponent_field (e : Z) : string :=
  (if e <? 0 then "-" else "+")
  ++ (if Z.abs e <? 10 then "0" ++ decimal (Z.abs e) else decimal (Z.abs e)).

Definition mantissa_field (p : nat) (m : Z) : string :=
  digits 1 (m / 10 ^ Z.of_nat p)
  ++ (if (p =? 0)%nat then "" else ".")
  ++ digits p m.

Definition format_e (p : nat) (x : Q) : string :=
  match Qnum x with
  | Z0 => mantissa_field p 0 ++ "e" ++ exponent_field 0
  | Zpos n =>
      let '(m, e) := mantissa_exponent p (Zpos n) (Zpos (Qden x)) in
      mantissa_field p m ++ "e" ++ exponent_field e
  | Zneg n =>
      let '(m, e) := mantissa_exponent p (Zpos n) (Zpos (Qden x)) in
      "-" ++ mantissa_field p m ++ "e" ++ exponent_field e
  end.




Section Line.

(** [str(x)] of a float with no format specification: the shortest
    decimal string that reads back as [x]. *)
Variable float_str : Q -> string.


End Line.

End Format.

(** ** Exact numerics

    The instance of [Numerics] that works in exact arithmetic: the
    weighted least-squares polynomial through the normal equations, the
    linearly interpolated quantile, and a square root that is exact on
    rational squares.  NumPy agrees with it up to rounding on well-conditioned
    full-rank problems; on a rank-deficient system this solver sets the
    free coefficients to zero, and on NaN weights it reports the LAPACK
    failure. *)

Module Exact.

Fixpoint qpow (x : Q) (n : nat) : Q :=
  match n with
  | O => 1
  | S n' => Qred (x * qpow x n')
  end.

Definition qsum (l : list Q) : Q := fold_left (fun a b => Qred (a + b)) l 0.

(** Exponents of a polynomial of degree [deg], highest first. *)
Definition powers (deg : nat) : list nat := rev (seq 0 (S deg)).

(** The augmented matrix of the normal equations of
    [minimise sum (w_i * (y_i - p(x_i)))^2]. *)
Definition normal_equations (x y w : list Q) (deg : nat) : list (list Q) :=
  let pts := combine (combine x y) w in
  map (fun pj =>
         map (fun pk =>
                qsum (map (fun '(xi, _, wi) => wi * wi * qpow xi (pj + pk)) pts))
             (powers deg)
         ++ [qsum (map (fun '(xi, yi, wi) => wi * wi * qpow xi pj * yi) pts)])
      (powers deg).

Definition entry (k : nat) (r : list Q) : Q := nth k r 0.

Definition is_zero (q : Q) : bool := Qeq_bool q 0.

(** [r - f * p], entry by entry. *)
Definition row_sub (f : Q) (p r : list Q) : list Q :=
  zip_with (fun a b => Qred (b - f * a)) p r.

Definition row_scale (f : Q) (p : list Q) : list Q := map (fun a => Qred (a * f)) p.

(** Split off the first row with a non-zero entry in column [k]. *)
Fixpoint pick_pivot (k : nat) (rows : list (list Q))
  : option (list Q * list (list Q)) :=
  match rows with
  | [] => None
  | r :: rows' =>
      if is_zero (entry k r) then
        match pick_pivot k rows' with
        | Some (p, rest) => Some (p, r :: rest)
        | None => None
        end
      else Some (r, rows')
  end.

(** Gauss-Jordan elimination over the columns [cols]; [solved] holds the
    pivot rows found so far, each with the column it solves. *)
Fixpoint gauss_jordan (cols : list nat) (pending : list (list Q))
    (solved : list (nat * list Q)) : list (nat * list Q) :=
  match cols with
  | [] => solved
  | k :: cols' =>
      match pick_pivot k pending with
      | None => gauss_jordan cols' pending solved
      | Some (p, rest) =>
          let p := row_scale (/ entry k p) p in
          let clear r := row_sub (entry k r) p r in
          gauss_jordan cols' (map clear rest)
                       ((k, p) :: map (fun '(j, r) => (j, clear r)) solved)
      end
  end.

Definition solution (n : nat) (solved : list (nat * list Q)) : list Q :=
  map (fun k =>
         match List.find (fun '(j, _) => (j =? k)%nat) solved with
         | Some (_, r) => entry n r
         | None => 0
         end)
      (seq 0 n).

Definition all_numbers (w : list (option Q)) : option (list Q) := mapM id w.

Definition least_squares (x y : list Q) (deg : nat) (w : option (list (option Q)))
  : result (list Q) :=
  let n := S deg in
  match w with
  | None =>
      Ok (solution n (gauss_jordan (seq 0 n)
                        (normal_equations x y (map (fun _ => 1) x) deg) []))
  | Some ws =>
      match all_numbers ws with
      | None => Raise LinAlgError
      | Some ws =>
          Ok (solution n (gauss_jordan (seq 0 n) (normal_equations x y ws deg) []))
      end
  end.

Fixpoint insert_sorted (v : Q) (l : list Q) : list Q :=
  match l with
  | [] => [v]
  | u :: l' => if Qleb v u then v :: l else u :: insert_sorted v l'
  end.

Definition sort (l : list Q) : list Q := fold_right insert_sorted [] l.

(** The default ("linear") method of [np.nanquantile]: position
    [q * (n - 1)] in the sorted data, interpolated between neighbours.
    (NumPy answers NaN on an empty vector; the pipeline never asks.) *)
Definition nanquantile (a : list Q) (q : Q) : Q :=
  let s := sort a in
  let h := q * inject_Z (Z.of_nat (length s - 1)) in
  let i := Z.to_nat (Qfloor h) in
  let g := h - inject_Z (Qfloor h) in
  let lo := nth i s 0 in
  let hi := nth (Nat.min (S i) (length s - 1)) s 0 in
  Qred (lo + g * (hi - lo)).

(** The square root truncated after 18 decimal places; exact on the
    squares of rationals. *)
Definition sqrt (q : Q) : Q :=
  let q := Qred q in
  Qred (Z.sqrt (Qnum q * Z.pos (Qden q) * 10 ^ 36) # (Qden q * 10 ^ 18)).

#[export] Instance numerics : Numerics :=
  {| polyfit_solve := least_squares;
     np_nanquantile := nanquantile;
     np_sqrt := sqrt |}.

End Exact.

(** ** The contract of the weights, in the words of the design

    [m] is the minimum strictly-positive uncertainty of [sigs]; every
    non-positive uncertainty is replaced by half of it, and the weight of
    an uncertainty is the inverse of its square. *)

Definition min_positive (m : Q) (sigs : list Q) : Prop :=
  In m sigs /\ 0 < m /\ forall s, In s sigs -> 0 < s -> m <= s.

Definition sanitised (m s : Q) : Q := if Qltb 0 s then s else m / 2.

Definition inverse_variance_weights (m : Q) (sigs : list Q) : list Q :=
  map (fun s => 1 / (sanitised m s) ^ 2) sigs.

(** ** Runs of the trim loop *)

(** The frames a run went through: those it trimmed, then the one it
    stopped at. *)
Definition visited (run : list frame * result frame) : list frame :=
  run.1 ++ match run.2 with Ok final => [final] | Raise _ => [] end.

(** Each frame has fewer rows than the one before it. *)
Fixpoint shrinking (fs : list frame) : Prop :=
  match fs with
  | a :: fs' =>
      match fs' with
      | b :: _ => (length b < length a)%nat
      | [] => True
      end /\ shrinking fs'
  | [] => True
  end.

(** ** Concrete batches and histories *)

Module Examples.

(** A reply received at local time [t] (sent and received at the same
    instant) from a server whose clock reads [t + o], dispersion [s]. *)
Definition reply (t o s : Q) : option ntplib.NTPStats :=
  Some {| ntplib.orig_time := t; ntplib.dest_time := t;
          ntplib.tx_time := t + o; ntplib.recv_time := t + o;
          ntplib.offset := o; ntplib.root_dispersion := s |}.

(** One reply per second from time 0, with the given offsets and
    dispersion 1. *)
Definition replies_of (os : list Q) : list (option ntplib.NTPStats) :=
  imap (fun i o => reply (inject_Z (Z.of_nat i)) o 1) os.

(** Five replies, the third one off by a second. *)
Definition replies5 : list (option ntplib.NTPStats) := replies_of [0; 0; 1; 0; 0].

(** Twenty replies with jitter and two gross outliers. *)
Definition replies20 : list (option ntplib.NTPStats) :=
  replies_of [0; 2; -1; 1; 0; -2; 50; 1; -1; 0; 2; -2; 1; -40; 0; 1; -1; 2; 0; -3].

(** A history row at local time [t] with offset [o] and uncertainty [s]. *)
Definition record (t o s : Q) : row :=
  {| local_time := t; pred_time := t; serv_time := t + o; offset := o;
     sig_offset := s; pred_offset := o; sig_pred_offset := s |}.

(** A frame of five samples, the third one off by a second. *)
Definition samples5 : frame :=
  [record 0 0 1; record 1 0 1; record 2 1 1; record 3 0 1; record 4 0 1].

(** The eighteen samples left of [replies20] after one removal. *)
Definition survivors18 : frame :=
  map (fun '(t, o) => record t o 1)
      [(0, 0); (1, 2); (2, -1); (3, 1); (4, 0); (5, -2); (7, 1); (8, -1); (9, 0);
       (10, 2); (11, -2); (12, 1); (14, 0); (15, 1); (16, -1); (17, 2); (18, 0);
       (19, -3)].

Definition history3 : frame := [record 0 3 1; record 1 6 1; record 2 0 1].

Definition history5 : frame := samples5.

End Examples.

(** * Properties *)

(** ** Numbers *)

Lemma Qltb_lt a b : Qltb a b = true <-> a < b.
Proof.
  unfold Qltb. rewrite negb_true_iff, <- not_true_iff_false, Qle_bool_iff.
  split; [apply Qnot_le_lt | apply Qlt_not_le].
Qed.

Lemma Qleb_le a b : Qleb a b = true <-> a <= b.
Proof. apply Qle_bool_iff. Qed.

Lemma Qleb_Qltb a b : Qleb a b = negb (Qltb b a).
Proof. unfold Qltb, Qleb. now rewrite negb_involutive. Qed.

Lemma over_threshold_spec count n :
  over_threshold count n = true <-> (n < 20 * count)%nat.
Proof.
  unfold over_threshold. rewrite Qltb_lt. unfold Qlt. cbn. lia.
Qed.

Lemma over_threshold_pos count n : over_threshold count n = true -> (0 < count)%nat.
Proof. rewrite over_threshold_spec. lia. Qed.

(** ** Masks *)

Lemma boolean_index_length {A} (data : list A) mask :
  length mask = length data ->
  (length (boolean_index data mask) + count_false mask = length data)%nat.
Proof.
  unfold boolean_index, count_false. rewrite length_map.
  revert mask. induction data as [|a data IH]; intros [|b mask] Hlen;
    cbn in *; try lia.
  specialize (IH mask ltac:(lia)). destruct b; cbn; lia.
Qed.

Section Facts.

Context {NP : Numerics}.

Lemma outlier_filter_length data fcol fit sig level degree mask :
  outlier_filter data fcol fit sig level degree = Ok mask ->
  length mask = length data.
Proof.
  unfold outlier_filter. intros H. cbn in H.
  destruct fit as [fc|]; cbn in H.
  - destruct (negb _); [discriminate|].
    destruct (polyfit_with_uncertainty _ _ _ _ _) as [trend|]; [|discriminate].
    cbn in H. simplify_eq.
    rewrite !length_map, length_combine. unfold col. rewrite !length_map. lia.
  - simplify_eq. unfold col. now rewrite !length_map.
Qed.

(** A removal drops exactly the rows that [count_outliers] counts. *)
Lemma remove_outliers_count data fcol fit sig level degree count trimmed :
  count_outliers data fcol fit sig level degree = Ok count ->
  remove_outliers data fcol fit sig level degree = Ok trimmed ->
  (length trimmed + count = length data)%nat.
Proof.
  unfold count_outliers, remove_outliers.
  destruct (outlier_filter _ _ _ _ _ _) as [mask|] eqn:Hmask; cbn; [|discriminate].
  intros ? ?. simplify_eq.
  apply boolean_index_length. eapply outlier_filter_length, Hmask.
Qed.

(** No frame, no fit: NumPy refuses an empty vector. *)
Lemma count_outliers_empty fcol xcol sig level degree :
  count_outliers [] fcol (Some xcol) sig level degree = Raise TypeError.
Proof. destruct sig; reflexivity. Qed.

(** The columns of a batch, and so its frame, have one entry per reply. *)
Lemma rmap_length {A B} (f : A -> result B) l bs :
  rmap f l = Ok bs -> length bs = length l.
Proof.
  revert bs. induction l as [|a l IH]; intros bs H; cbn in H; [now simplify_eq|].
  destruct (f a); [|discriminate]. cbn in H.
  destruct (rmap f l) as [bs'|]; [|discriminate]. cbn in H. simplify_eq.
  cbn. now rewrite (IH bs').
Qed.

Lemma DataFrame_length lt pt st o so po spo n :
  length lt = n -> length pt = n -> length st = n -> length o = n ->
  length so = n -> length po = n -> length spo = n ->
  length (DataFrame lt pt st o so po spo) = n.
Proof.
  revert lt pt st o so po spo.
  induction n as [|n IH]; intros [|? lt] [|? pt] [|? st] [|? o] [|? so] [|? po] [|? spo];
    cbn; intros; try discriminate; try reflexivity.
  f_equal. apply IH; congruence.
Qed.

Lemma sample_frame_length responses history b :
  sample_batch responses history = Ok b ->
  length (sample_frame b) = length responses
  /\ length (offsets b) = length responses.
Proof.
  unfold sample_batch. intros H.
  destruct (rmap _ _) as [pred|] eqn:Hpred; [|discriminate].
  apply rmap_length in Hpred. cbn in H. simplify_eq.
  unfold sample_frame, midpoints in *. cbn.
  rewrite length_zip_with, !length_map in Hpred.
  split; [|now rewrite length_map].
  apply DataFrame_length;
    rewrite ?length_zip_with, ?length_map, ?Hpred; lia.
Qed.

(** ** The trim loop *)

Ltac rewrite_tests :=
  repeat match goal with
    | H : count_outliers _ _ _ _ _ _ = _ |- _ => rewrite H
    | H : remove_outliers _ _ _ _ _ _ = _ |- _ => rewrite H
    | H : over_threshold _ _ = _ |- _ => rewrite H
    | H : (length _ <? 5)%nat = _ |- _ => rewrite H
    end.

Lemma trim_loop_eq n d :
  trim_loop n d =
    match count_outliers d Offset (Some LocalTime) (Some SigOffset) (1 # 2) 3 with
    | Raise e => ([], Raise e)
    | Ok count =>
        if over_threshold count n then
          if (length d <? 5)%nat then ([], Ok d)
          else
            match remove_outliers d Offset (Some LocalTime) (Some SigOffset) (1 # 2) 3 with
            | Raise e => ([], Raise e)
            | Ok trimmed => let '(trace, final) := trim_loop n trimmed in
                            (d :: trace, final)
            end
        else ([], Ok d)
    end.
Proof. funelim (trim_loop n d); rewrite_tests; reflexivity. Qed.

Lemma trim_loop_invariant n d :
  (length (trim_loop n d).1 <= length d)%nat
  /\ shrinking (visited (trim_loop n d))
  /\ (forall f, head (visited (trim_loop n d)) = Some f -> f = d)
  /\ Forall (fun f => (5 <= length f)%nat) (trim_loop n d).1
  /\ ((trim_loop n d).1 = [] \/ (length (trim_loop n d).1 + 4 <= length d)%nat).
Proof.
  remember (length d) as k eqn:Hk. revert d Hk.
  induction k as [k IH] using lt_wf_ind. intros d ->.
  rewrite trim_loop_eq.
  destruct (count_outliers d _ _ _ _ _) as [count|e] eqn:Hcount;
    [|cbn; repeat split; try lia; try constructor; intros; simplify_eq; auto].
  destruct (over_threshold count n) eqn:Hover;
    [|cbn; repeat split; try lia; try constructor; intros; simplify_eq; auto].
  destruct (length d <? 5)%nat eqn:Hfive;
    [cbn; repeat split; try lia; try constructor; intros; simplify_eq; auto|].
  destruct (remove_outliers d _ _ _ _ _) as [trimmed|e] eqn:Hremove;
    [|cbn; repeat split; try lia; try constructor; intros; simplify_eq; auto].
  pose proof (over_threshold_pos _ _ Hover) as Hpos.
  pose proof (remove_outliers_count _ _ _ _ _ _ _ _ Hcount Hremove) as Hsum.
  destruct (IH (length trimmed) ltac:(lia) trimmed eq_refl)
    as (Hlen & Hshr & Hhd & Hfloor & Hfour).
  destruct (trim_loop n trimmed) as [trace final].
  apply Nat.ltb_ge in Hfive.
  split; [|split; [|split; [|split]]].
  - cbn in *. lia.
  - unfold visited in *. cbn [fst snd app] in *.
    cbn. split; [|exact Hshr].
    destruct (trace ++ _) as [|f fs] eqn:Hv; [exact I|].
    rewrite (Hhd f eq_refl). lia.
  - intros f. cbn. congruence.
  - cbn. constructor; assumption.
  - right. cbn in *. destruct Hfour as [->|Hfour]; cbn; lia.
Qed.

End Facts.

(** ** Exact numerics on small inputs *)

(** The quartiles NumPy reports for [[1; 2; 3; 4; 5; 100]]. *)
Example nanquantile_example :
  Exact.nanquantile [1; 2; 3; 4; 5; 100] (1 # 4) == 9 # 4
  /\ Exact.nanquantile [1; 2; 3; 4; 5; 100] (3 # 4) == 19 # 4.
Proof. split; vm_compute; reflexivity. Qed.

(** Tukey's fence without detrending: 100 is the one outlier of
    [[1; 2; 3; 4; 5; 100]], and 50 the one of [[5; 5; 5; 5; 5; 50]]. *)
Example outlier_filter_example :
  outlier_filter (NP := Exact.numerics)
    (map (fun o => Examples.record 0 o 1) [1; 2; 3; 4; 5; 100])
    Offset None None (3 # 2) 3
  = Ok [true; true; true; true; true; false]
  /\ outlier_filter (NP := Exact.numerics)
       (map (fun o => Examples.record 0 o 1) [5; 5; 5; 5; 5; 50])
       Offset None None (3 # 2) 3
     = Ok [true; true; true; true; true; false].
Proof. split; vm_compute; reflexivity. Qed.

(** The cubic fitted to [samples5] solves the normal equations: its
    residuals are orthogonal to 1, x, x^2 and x^3. *)
Example least_squares_example :
  exists trend,
    polyfit_with_uncertainty (NP := Exact.numerics) Examples.samples5
                             LocalTime Offset (Some SigOffset) 3 = Ok trend
    /\ Forall (fun k =>
                 np_sum (map (fun r => (offset r - np_polyval trend (local_time r))
                                       * Exact.qpow (local_time r) k)
                             Examples.samples5) == 0)
              [0; 1; 2; 3]%nat.
Proof.
  eexists. split; [vm_compute; reflexivity|].
  repeat constructor; vm_compute; reflexivity.
Qed.

(** ** Runs of the loop and of the cycle *)

(** C8.  The trim loop terminates on every batch: it is a total function,
    and a run trims at most as many times as the batch has samples,
    because every frame it goes through has fewer rows than the one
    before it (an iteration that continues removes at least one row).
    A run that trims at all trims at most [length sample_data - 4] times,
    so even with the pass that ends in [break] the body is entered no
    more often than there are samples. *)
Theorem trim_loop_terminates {NP : Numerics} (n : nat) (sample_data : frame) :
  exists trace final,
    trim_loop n sample_data = (trace, final)
    /\ (length trace <= length sample_data)%nat
    /\ (trace = [] \/ (length trace + 4 <= length sample_data)%nat)
    /\ shrinking (visited (trace, final)).
Proof.
  destruct (trim_loop_invariant n sample_data) as (Hlen & Hshr & _ & _ & Hfour).
  destruct (trim_loop n sample_data) as [trace final].
  exists trace, final. auto.
Qed.

(** C2, as the code has it.  The floor is tested before a removal, not
    after it: every frame from which the loop removes outliers has at
    least 5 rows, so nothing is removed from a frame of fewer than 5 (the
    removal itself may leave fewer than 5 rows, and the loop then stops). *)
Theorem trim_only_from_five {NP : Numerics} (n : nat) (sample_data : frame) :
  Forall (fun f => (5 <= length f)%nat) (trim_loop n sample_data).1.
Proof. apply trim_loop_invariant. Qed.

(** C2 as stated fails: from five samples the loop removes one and
    leaves four. *)
Lemma trim_below_floor :
  (5 <= length Examples.samples5)%nat
  /\ exists final,
       (trim_loop (NP := Exact.numerics) (length Examples.samples5)
                  Examples.samples5).2 = Ok final
       /\ length final = 4%nat.
Proof.
  split; [vm_compute; lia|].
  eexists. split; vm_compute; reflexivity.
Qed.

(** C10.  The loop stops as soon as the outlier count is at most one
    twentieth of [n], the size of the batch before trimming, whatever the
    number of rows still in the frame; an iteration that continues hands
    the same [n] to the next one.  So a run can stop with more outliers
    than one twentieth of what survived: of twenty samples eighteen
    survive, one of them still flagged. *)
Theorem trim_threshold_is_batch_size :
  (forall (NP : Numerics) (n count : nat) (d : frame),
      count_outliers d Offset (Some LocalTime) (Some SigOffset) (1 # 2) 3 = Ok count ->
      (20 * count <= n)%nat ->
      trim_loop n d = ([], Ok d))
  /\ (forall (NP : Numerics) (n count : nat) (d trimmed : frame),
      count_outliers d Offset (Some LocalTime) (Some SigOffset) (1 # 2) 3 = Ok count ->
      (n < 20 * count)%nat ->
      (5 <= length d)%nat ->
      remove_outliers d Offset (Some LocalTime) (Some SigOffset) (1 # 2) 3 = Ok trimmed ->
      trim_loop n d = (d :: (trim_loop n trimmed).1, (trim_loop n trimmed).2))
  /\ (exists survivors,
      surviving_samples (NP := Exact.numerics) Examples.replies20 [] = Ok survivors
      /\ length (collect Examples.replies20) = 20%nat
      /\ length survivors = 18%nat
      /\ count_outliers (NP := Exact.numerics) survivors Offset (Some LocalTime)
                        (Some SigOffset) (1 # 2) 3 = Ok 1%nat
      /\ over_threshold 1 20 = false
      /\ over_threshold 1 (length survivors) = true).
Proof.
  split; [|split].
  - intros NP n count d Hcount Hle. rewrite trim_loop_eq, Hcount.
    destruct (over_threshold count n) eqn:Hover; [|reflexivity].
    apply over_threshold_spec in Hover. lia.
  - intros NP n count d trimmed Hcount Hlt Hfive Hremove.
    rewrite trim_loop_eq, Hcount, Hremove.
    apply over_threshold_spec in Hlt. rewrite Hlt.
    apply Nat.ltb_ge in Hfive. rewrite Hfive.
    now destruct (trim_loop n trimmed).
  - eexists. split; [vm_compute; reflexivity|].
    repeat split; vm_compute; reflexivity.
Qed.

Lemma trim_threshold_is_batch_size_witness :
  (20 * 1 <= 20)%nat
  /\ (18 < 20 * 1)%nat
  /\ length Examples.survivors18 = 18%nat
  /\ trim_loop (NP := Exact.numerics) 20 Examples.survivors18
     = ([], Ok Examples.survivors18).
Proof.
  split; [lia|]. split; [lia|]. split; [reflexivity|].
  apply (proj1 trim_threshold_is_batch_size Exact.numerics 20%nat 1%nat);
    [vm_compute; reflexivity | lia].
Defined.

(** C3.  A cycle in which no request was answered raises: the frame is
    empty, and the first test of the trim loop asks NumPy to fit a
    polynomial to no points.  Nothing in the loop catches it, so no
    record is made and the cycle does not complete. *)
Theorem empty_batch_raises {NP : Numerics} (requests : nat) (history : frame) :
  acquisition_cycle (replicate requests None) history = Raise TypeError.
Proof.
  unfold acquisition_cycle.
  replace (collect (replicate requests None)) with (@nil ntplib.NTPStats)
    by (unfold collect; induction requests; cbn; auto).
  cbn. rewrite trim_loop_eq, count_outliers_empty. reflexivity.
Qed.

(** What a cycle records: every aggregate is computed from the columns
    of the batch as they were before the trim loop. *)
Lemma acquisition_cycle_record {NP : Numerics} replies history r h :
  acquisition_cycle replies history = Ok (r, h) ->
  exists b,
    sample_batch (collect replies) history = Ok b
    /\ local_time r = np_mean (local_times b)
    /\ pred_time r = np_mean (pred_times b)
    /\ serv_time r = np_mean (serv_times b)
    /\ weighted_mean (offsets b) (sig_offsets b) = Ok (offset r, sig_offset r)
    /\ weighted_mean (pred_offsets b) (sig_pred_offsets b)
       = Ok (pred_offset r, sig_pred_offset r)
    /\ h = history ++ [r].
Proof.
  unfold acquisition_cycle. intros H.
  destruct (sample_batch _ _) as [b|] eqn:Hb; [|discriminate].
  exists b. split; [reflexivity|]. cbn in H.
  destruct (trim_loop _ _).2; [|discriminate]. cbn in H.
  destruct (weighted_mean (offsets b) _) as [[o so]|]; [|discriminate]. cbn in H.
  destruct (weighted_mean (pred_offsets b) _) as [[po spo]|]; [|discriminate].
  cbn in H. injection H as <- <-. cbn. auto 10.
Qed.

(** C1 fails on the code.  With five samples of which the trim loop drops
    one, the record of the cycle carries the weighted mean offset of all
    five (1/5), not that of the four survivors (0): the aggregates are
    taken from the columns of the whole batch. *)
Theorem cycle_aggregates_whole_batch :
  exists (r : row) (h survivors : frame) (mean sigma : Q),
    acquisition_cycle (NP := Exact.numerics) Examples.replies5 [] = Ok (r, h)
    /\ surviving_samples (NP := Exact.numerics) Examples.replies5 [] = Ok survivors
    /\ length survivors = 4%nat
    /\ weighted_mean (NP := Exact.numerics) (col survivors Offset)
                     (col survivors SigOffset) = Ok (mean, sigma)
    /\ mean == 0
    /\ offset r == 1 # 5
    /\ offset r == np_average [0; 0; 1; 0; 0] [1; 1; 1; 1; 1].
Proof.
  do 5 eexists.
  split; [vm_compute; reflexivity|].
  split; [vm_compute; reflexivity|].
  split; [reflexivity|].
  split; [vm_compute; reflexivity|].
  repeat split; vm_compute; reflexivity.
Qed.

(** ** predict_time *)

Lemma in_window_spec t window r :
  in_window t window r = true <-> t - window <= local_time r /\ local_time r < t.
Proof. unfold in_window. rewrite andb_true_iff, Qltb_lt, Qleb_le. tauto. Qed.

Lemma filter_sublist {A} (p : A -> bool) (l : list A) : sublist (List.filter p l) l.
Proof.
  induction l as [|a l IH]; cbn; [constructor|].
  destruct (p a); now constructor.
Qed.

(** C4.  The selection of [predict_time] is the subsequence of the
    history with [t - window <= local_time < t]; on an empty selection the
    prediction is [t] itself, on a selection of 1 to 4 records it is [t]
    plus the arithmetic mean of their offsets. *)
Theorem predict_time_sparse {NP : Numerics} (t : Q) (history : frame)
    (window level : Q) (degree : nat) :
  let selection := List.filter (in_window t window) history in
  sublist selection history
  /\ (forall r, In r selection <->
                In r history /\ t - window <= local_time r /\ local_time r < t)
  /\ (selection = [] -> predict_time t history window level degree = Ok t)
  /\ ((1 <= length selection <= 4)%nat ->
      predict_time t history window level degree
      = Ok (t + np_sum (col selection Offset)
                / inject_Z (Z.of_nat (length selection)))).
Proof.
  intros selection. split; [apply filter_sublist|]. split; [|split].
  - intros r. unfold selection. rewrite filter_In, in_window_spec. tauto.
  - intros Hsel. unfold predict_time. fold selection. now rewrite Hsel.
  - intros [Hlo Hhi]. unfold predict_time. fold selection.
    replace (length selection <? 5)%nat with true
      by (symmetry; apply Nat.ltb_lt; lia).
    replace (length selection =? 0)%nat with false
      by (symmetry; apply Nat.eqb_neq; lia).
    unfold np_mean, col. now rewrite length_map.
Qed.

Lemma predict_time_sparse_witness :
  predict_time (NP := Exact.numerics) 3 Examples.history3 3000 (3 # 2) 3
  = Ok (3 + np_sum [3; 6; 0] / inject_Z 3).
Proof.
  apply (proj2 (proj2 (proj2
           (predict_time_sparse (NP := Exact.numerics) 3 Examples.history3
                                3000 (3 # 2) 3)))).
  vm_compute. lia.
Defined.

(** C5, as the code has it.  When the selection has at least 5 records
    and fewer than 5 survive the removal of outliers, the prediction is
    [t] plus the mean offset of the whole selection if some record
    survives, and [t] itself if none does. *)
Theorem predict_time_after_trim {NP : Numerics} (t : Q) (history : frame)
    (window level : Q) (degree : nat) (filtered : frame) :
  let selection := List.filter (in_window t window) history in
  (5 <= length selection)%nat ->
  remove_outliers selection Offset (Some LocalTime) (Some SigOffset) level degree
  = Ok filtered ->
  (length filtered < 5)%nat ->
  predict_time t history window level degree
  = Ok (match filtered with
        | [] => t
        | _ :: _ => t + np_mean (col selection Offset)
        end).
Proof.
  intros selection Hfive Hremove Hfew. unfold predict_time. fold selection.
  replace (length selection <? 5)%nat with false
    by (symmetry; apply Nat.ltb_ge; lia).
  rewrite Hremove. cbn [mbind result_bind].
  replace (length filtered <? 5)%nat with true
    by (symmetry; apply Nat.ltb_lt; lia).
  destruct filtered; reflexivity.
Qed.

Lemma predict_time_after_trim_witness :
  predict_time (NP := Exact.numerics) 5 Examples.history5 3000 (-1) 3 = Ok 5.
Proof.
  apply (predict_time_after_trim (NP := Exact.numerics) 5 Examples.history5
                                 3000 (-1) 3 []).
  - vm_compute. lia.
  - vm_compute. reflexivity.
  - vm_compute. lia.
Defined.

(** C5 as stated fails when no record survives: five records are in the
    window, the removal leaves none, and the prediction is [t] = 5, not
    5 plus the mean offset 1/5 of the selection. *)
Lemma predict_time_no_survivor :
  let selection := List.filter (in_window 5 3000) Examples.history5 in
  length selection = 5%nat
  /\ remove_outliers (NP := Exact.numerics) selection Offset (Some LocalTime)
                     (Some SigOffset) (-1) 3 = Ok []
  /\ predict_time (NP := Exact.numerics) 5 Examples.history5 3000 (-1) 3 = Ok 5
  /\ np_mean (col selection Offset) == 1 # 5
  /\ ~ 5 == 5 + np_mean (col selection Offset).
Proof.
  cbv zeta. repeat split; try (vm_compute; reflexivity).
  vm_compute. discriminate.
Qed.

(** ** The weights *)

Lemma Qminb_cases a b : Qminb a b = a /\ a <= b \/ Qminb a b = b /\ b <= a.
Proof.
  unfold Qminb. destruct (Qleb a b) eqn:H.
  - left. split; [reflexivity|]. now apply Qleb_le.
  - right. split; [reflexivity|].
    apply Qlt_le_weak, Qltb_lt. unfold Qltb. unfold Qleb in H. now rewrite H.
Qed.

Lemma fold_min_spec l x :
  In (fold_left Qminb l x) (x :: l)
  /\ forall s, In s (x :: l) -> fold_left Qminb l x <= s.
Proof.
  revert x. induction l as [|y l IH]; intros x; cbn [fold_left].
  - split; [now left|]. intros s [<-|[]]. apply Qle_refl.
  - destruct (IH (Qminb x y)) as [Hin Hle]. split.
    + destruct Hin as [Hin|Hin]; [|right; now right].
      rewrite <- Hin.
      destruct (Qminb_cases x y) as [[-> _]|[-> _]]; [now left|right; now left].
    + assert (Hxy : Qminb x y <= x /\ Qminb x y <= y).
      { destruct (Qminb_cases x y) as [[-> H]|[-> H]];
          split; auto using Qle_refl. }
      intros s [<-|[<-|Hs]].
      * eapply Qle_trans; [apply Hle; now left|tauto].
      * eapply Qle_trans; [apply Hle; now left|tauto].
      * apply Hle. now right.
Qed.

Lemma positive_filter_In s sigs :
  In s (List.filter (fun s => Qltb 0 s) sigs) <-> In s sigs /\ 0 < s.
Proof. now rewrite filter_In, Qltb_lt. Qed.

(** With a positive entry, the minimum the program divides by two is the
    least positive entry. *)
Lemma ndarray_min_positive sigs :
  (exists s, In s sigs /\ 0 < s) ->
  exists m, ndarray_min (List.filter (fun s => Qltb 0 s) sigs) = Ok m
            /\ min_positive m sigs.
Proof.
  intros (s & Hs & Hpos).
  assert (Hin : In s (List.filter (fun s => Qltb 0 s) sigs))
    by now apply positive_filter_In.
  clear Hs. rename Hin into Hs.
  destruct (List.filter _ sigs) as [|x l] eqn:Hf; [destruct Hs|].
  exists (fold_left Qminb l x). split; [reflexivity|].
  destruct (fold_min_spec l x) as [Hin Hle]. rewrite <- Hf in Hin, Hle.
  apply positive_filter_In in Hin as [Hin Hm].
  repeat split; auto.
  intros u Hu Hupos. apply Hle. now apply positive_filter_In.
Qed.

Lemma ndarray_min_none sigs :
  (forall s, In s sigs -> s <= 0) ->
  List.filter (fun s => Qltb 0 s) sigs = [].
Proof.
  intros Hall. destruct (List.filter _ sigs) as [|x l] eqn:Hf; [reflexivity|].
  assert (Hx : In x (List.filter (fun s => Qltb 0 s) sigs)) by (rewrite Hf; now left).
  apply positive_filter_In in Hx as [Hx Hpos].
  apply Hall in Hx. exfalso. eapply Qlt_not_le; eauto.
Qed.

Lemma sanitise_assign m sigs :
  inverse_square (assign_nonpositive (m / 2) sigs) = inverse_variance_weights m sigs.
Proof.
  unfold inverse_square, assign_nonpositive, inverse_variance_weights, sanitised.
  rewrite map_map. apply map_ext. intros s.
  rewrite Qleb_Qltb. now destruct (Qltb 0 s).
Qed.

Lemma weights_from_uncertainty_min m sigs :
  ndarray_min (List.filter (fun s => Qltb 0 s) sigs) = Ok m ->
  weights_from_uncertainty sigs = Ok (inverse_variance_weights m sigs)
  /\ weights_from_uncertainty_series sigs = map Some (inverse_variance_weights m sigs).
Proof.
  intros Hm. unfold weights_from_uncertainty, weights_from_uncertainty_series.
  rewrite Hm. cbn. unfold ndarray_min in Hm. unfold series_min.
  destruct (List.filter _ sigs); [discriminate|]. injection Hm as ->.
  now rewrite sanitise_assign.
Qed.

(** The run of [Heap.weights_from_uncertainty]: two arrays are created
    besides the result, and every array that was in the store is found
    in it afterwards with the same contents. *)
Lemma heap_weights_run (h : gmap nat (list Q)) (sig_data : nat) (sigs : list Q) (m : Q) :
  h !! sig_data = Some sigs ->
  ndarray_min (List.filter (fun s => Qltb 0 s) sigs) = Ok m ->
  exists w h',
    Heap.weights_from_uncertainty sig_data h = (Ok w, h')
    /\ h' !! w = Some (inverse_variance_weights m sigs)
    /\ forall l a, h !! l = Some a -> h' !! l = Some a.
Proof.
  intros Hsig Hm.
  set (l1 := fresh (dom h)).
  set (h1 := <[l1 := sigs]> h).
  set (l2 := fresh (dom h1)).
  set (h2 := <[l2 := List.filter (fun s => Qltb 0 s) sigs]> h1).
  set (h3 := <[l1 := assign_nonpositive (m / 2) sigs]> h2).
  set (l4 := fresh (dom h3)).
  assert (H1 : l1 ∉ dom h) by apply is_fresh.
  assert (H2 : l2 ∉ dom h1) by apply is_fresh.
  assert (H4 : l4 ∉ dom h3) by apply is_fresh.
  assert (H12 : l1 ≠ l2).
  { intros E. apply H2. rewrite <- E. unfold h1. set_solver. }
  exists l4, (<[l4 := inverse_square (assign_nonpositive (m / 2) sigs)]> h3).
  split; [|split].
  - unfold Heap.weights_from_uncertainty, Heap.copy, Heap.getitem_positive,
      Heap.min, Heap.setitem_nonpositive, Heap.reciprocal_square,
      Heap.load, Heap.alloc, Heap.store, Heap.lift.
    unfold mbind, Heap.M_bind. rewrite Hsig.
    fold l1. fold h1.
    replace (h1 !! l1) with (Some sigs) by (unfold h1; now rewrite lookup_insert_eq).
    fold l2. fold h2.
    replace (h2 !! l2) with (Some (List.filter (fun s => Qltb 0 s) sigs))
      by (unfold h2; now rewrite lookup_insert_eq).
    rewrite Hm.
    replace (h2 !! l1) with (Some sigs)
      by (unfold h2, h1; rewrite lookup_insert_ne by congruence;
          now rewrite lookup_insert_eq).
    fold h3.
    replace (h3 !! l1) with (Some (assign_nonpositive (m / 2) sigs))
      by (unfold h3; now rewrite lookup_insert_eq).
    reflexivity.
  - rewrite lookup_insert_eq. now rewrite sanitise_assign.
  - intros l a Hl.
    assert (Hdom : l ∈ dom h) by (apply elem_of_dom; eauto).
    assert (l ≠ l1) by (intros ->; contradiction).
    assert (l ≠ l2) by (intros ->; apply H2; unfold h1; set_solver).
    assert (l ≠ l4) by (intros ->; apply H4; unfold h3, h2, h1; set_solver).
    unfold h3, h2, h1. now rewrite !lookup_insert_ne by congruence.
Qed.

(** C7.  When some uncertainty is strictly positive, the weights are
    [1 / sigma_i ^ 2] after every non-positive [sigma_i] has been replaced
    by half the least strictly-positive one; the array the caller passed
    is not written to (the result and the sanitised copy are new
    arrays).  For [[0; -1; 2; 4]] the weights are [[1; 1; 1/4; 1/16]]. *)
Theorem weights_from_uncertainty_spec :
  (forall (h : gmap nat (list Q)) (sig_data : nat) (sigs : list Q),
      h !! sig_data = Some sigs ->
      (exists s, In s sigs /\ 0 < s) ->
      exists (m : Q) (w : nat) (h' : gmap nat (list Q)),
        min_positive m sigs
        /\ weights_from_uncertainty sigs = Ok (inverse_variance_weights m sigs)
        /\ weights_from_uncertainty_series sigs
           = map Some (inverse_variance_weights m sigs)
        /\ Heap.weights_from_uncertainty sig_data h = (Ok w, h')
        /\ h' !! w = Some (inverse_variance_weights m sigs)
        /\ h' !! sig_data = Some sigs
        /\ forall l a, h !! l = Some a -> h' !! l = Some a)
  /\ exists w, weights_from_uncertainty [0; -1; 2; 4] = Ok w
               /\ Forall2 Qeq w [1; 1; 1 # 4; 1 # 16].
Proof.
  split.
  - intros h sig_data sigs Hsig Hpos.
    destruct (ndarray_min_positive sigs Hpos) as (m & Hm & Hmin).
    destruct (weights_from_uncertainty_min m sigs Hm) as [Hw Hs].
    destruct (heap_weights_run h sig_data sigs m Hsig Hm) as (w & h' & Hrun & Hres & Hkeep).
    exists m, w, h'. repeat split; auto; apply Hmin.
  - eexists. split; [reflexivity|].
    repeat constructor; vm_compute; reflexivity.
Qed.

Lemma weights_from_uncertainty_spec_witness :
  exists (w : nat) (h' : gmap nat (list Q)),
    Heap.weights_from_uncertainty 0 ({[ 0%nat := [0; -1; 2; 4] ]}) = (Ok w, h')
    /\ h' !! 0%nat = Some [0; -1; 2; 4].
Proof.
  destruct (proj1 weights_from_uncertainty_spec
              ({[ 0%nat := [0; -1; 2; 4] ]}) 0%nat [0; -1; 2; 4])
    as (m & w & h' & _ & _ & _ & Hrun & _ & Hsame & _).
  - reflexivity.
  - exists 2. split; [cbn; tauto | reflexivity].
  - exists w, h'. split; assumption.
Defined.

(** Without a strictly-positive uncertainty the minimum is taken of
    nothing: on an array this raises [ValueError], which [weighted_mean]
    lets through; on a Series it is NaN, and every weight handed to
    NumPy is NaN. *)
Lemma nonpositive_uncertainty_raises {NP : Numerics} (data sig_data : list Q) :
  (forall s, In s sig_data -> s <= 0) ->
  weights_from_uncertainty sig_data = Raise ValueError
  /\ weighted_mean data sig_data = Raise ValueError
  /\ weights_from_uncertainty_series sig_data = map (fun _ => None) sig_data.
Proof.
  intros Hall. pose proof (ndarray_min_none _ Hall) as Hnone.
  unfold weighted_mean, weights_from_uncertainty, weights_from_uncertainty_series.
  rewrite Hnone. cbn. repeat split.
  apply map_ext_in. intros s Hs.
  apply Hall, Qleb_le in Hs. now rewrite Hs.
Qed.

(** A cycle whose replies all carry a non-positive dispersion records
    nothing, whatever NumPy makes of the NaN weights on the way. *)
Lemma cycle_needs_positive_dispersion {NP : Numerics} replies history :
  (forall r, In r (collect replies) -> ntplib.root_dispersion r <= 0) ->
  forall out, acquisition_cycle replies history <> Ok out.
Proof.
  intros Hall [r h] Hcycle.
  destruct (acquisition_cycle_record _ _ _ _ Hcycle) as (b & Hb & _ & _ & _ & Hmean & _).
  assert (Hsig : sig_offsets b = map ntplib.root_dispersion (collect replies)).
  { unfold sample_batch in Hb. destruct (rmap _ _); [|discriminate].
    cbn in Hb. now simplify_eq. }
  destruct (nonpositive_uncertainty_raises (offsets b) (sig_offsets b)) as (_ & Hraise & _).
  { rewrite Hsig. intros s Hs. apply in_map_iff in Hs as (r' & <- & Hr). now apply Hall. }
  rewrite Hraise in Hmean. discriminate.
Qed.

(** C6, as the code has it.  When no uncertainty is strictly positive
    there are no weights: on an array the minimum of nothing raises
    [ValueError], and [weighted_mean] lets it through instead of
    computing an unweighted mean; on a Series the weights handed to the
    fit are all NaN, not absent. *)
Theorem no_positive_uncertainty {NP : Numerics} (data sig_data : list Q) :
  (forall s, In s sig_data -> s <= 0) ->
  weights_from_uncertainty sig_data = Raise ValueError
  /\ weighted_mean data sig_data = Raise ValueError
  /\ weights_from_uncertainty_series sig_data = map (fun _ => None) sig_data.
Proof. apply nonpositive_uncertainty_raises. Qed.

Lemma no_positive_uncertainty_witness :
  weighted_mean (NP := Exact.numerics) [1; 3] [0; 0] = Raise ValueError.
Proof.
  apply (no_positive_uncertainty (NP := Exact.numerics) [1; 3] [0; 0]).
  intros s [<-|[<-|[]]]; discriminate.
Defined.

(** C6 as stated fails: with uncertainties [[0; 0]] the weighted mean of
    [[1; 3]] is not the unweighted mean 2, it is an exception. *)
Lemma weighted_mean_no_fallback :
  (forall s, In s [0; 0] -> s <= 0)
  /\ np_mean [1; 3] == 2
  /\ forall r, weighted_mean (NP := Exact.numerics) [1; 3] [0; 0] <> Ok r.
Proof.
  split; [intros s [<-|[<-|[]]]; discriminate|].
  split; [reflexivity|].
  intros r. vm_compute. discriminate.
Qed.

(** ** The history line *)

Section FormatFacts.

Import Format.
Local Open Scope string_scope.
Local Open Scope Z_scope.




























End FormatFacts.

Example format_e_examples :
  Format.format_e 4 (12345678 # 1000) = "1.2346e+04"%string
  /\ Format.format_e 4 (- (12345 # 100000000)) = "-1.2345e-04"%string
  /\ Format.format_e 4 0 = "0.0000e+00"%string
  /\ Format.format_e 4 (999995 # 100) = "1.0000e+04"%string
  /\ Format.format_e 4 (123445 # 100000) = "1.2344e+00"%string
  /\ Format.format_e 4 (1 # 3) = "3.3333e-01"%string
  /\ Format.format_e 4 (12345 * 1000000000000000) = "1.2345e+19"%string.
Proof. repeat split; vm_compute; reflexivity. Qed.



